(** * Theme switching logic of [static/script.js]

    A shallow embedding of the theme preference script (resolution of the
    preferred theme, its application to the document, and the toggle button's
    click handler) together with the properties its specification states.

    The script talks to three host objects: [localStorage], [window.matchMedia]
    and the [document].  They are modelled as one explicit [World] value that
    every function of the script threads through a small state-and-exception
    monad. *)

From stdpp Require Import gmap strings list.

Local Open Scope string_scope.

(** ** JavaScript values the script manipulates *)

(** Theme values are JavaScript strings or [null] ([localStorage.getItem] and
    [getAttribute] both answer [null] for a missing entry). *)
Inductive value : Type :=
  | Null
  | Str (s : string).

#[global] Instance value_eq_dec : EqDecision value.
Proof. solve_decision. Defined.

(** The only exception the language itself can raise in this script: reading
    or writing a property of [null]. *)
Inductive Exn : Type :=
  | TypeError.

(** ToBoolean: [null] and the empty string are falsy, every other string and
    every object reference is truthy. *)
Class Truthy (A : Type) := truthy : A → bool.

#[global] Instance value_truthy : Truthy value := λ v,
  match v with
  | Null => false
  | Str s => negb (String.eqb s "")
  end.

(** Strict equality [===] on the values above. *)
Definition strict_eq (a b : value) : bool :=
  match a, b with
  | Null, Null => true
  | Str s, Str t => String.eqb s t
  | _, _ => false
  end.

(** ToString, as applied by [setItem] and [setAttribute] to their value
    argument. *)
Definition to_string (v : value) : string :=
  match v with
  | Null => "null"
  | Str s => s
  end.

(** What a nullable string lookup hands back to the script. *)
Definition of_lookup (o : option string) : value :=
  match o with
  | Some s => Str s
  | None => Null
  end.

(** ** The host environment *)

(** The two closures the script registers as event listeners. *)
Inductive Listener : Type :=
  | OnDOMContentLoaded   (* the arrow function of lines 28-38 *)
  | OnToggleClick.       (* the arrow function of lines 31-36 *)

(** The two elements of the page the script looks up. *)
Inductive node : Type :=
  | ToggleButton         (* the element with id [themeToggle] *)
  | ToggleIcon.          (* the first [i] element below it *)

#[global] Instance node_truthy : Truthy (option node) := λ r,
  match r with
  | Some _ => true
  | None => false
  end.

Record Element : Type := mkElement {
  className : string;
  listeners : list (string * Listener)
}.

(** The document model holds the root element's attributes, the listeners
    registered on the document, and the two optional elements.  The icon is
    reachable through the selector only while the button exists. *)
Record World : Type := mkWorld {
  localStorage : gmap string string;
  matchMedia : string → bool;
  root_attrs : gmap string string;
  doc_listeners : list (string * Listener);
  themeToggle : option Element;
  themeToggle_i : option Element
}.

Definition set_localStorage (f : gmap string string → gmap string string) (w : World) : World :=
  mkWorld (f (localStorage w)) (matchMedia w) (root_attrs w) (doc_listeners w)
          (themeToggle w) (themeToggle_i w).

Definition set_matchMedia (m : string → bool) (w : World) : World :=
  mkWorld (localStorage w) m (root_attrs w) (doc_listeners w)
          (themeToggle w) (themeToggle_i w).

Definition set_root_attrs (f : gmap string string → gmap string string) (w : World) : World :=
  mkWorld (localStorage w) (matchMedia w) (f (root_attrs w)) (doc_listeners w)
          (themeToggle w) (themeToggle_i w).

Definition set_doc_listeners (f : list (string * Listener) → list (string * Listener))
    (w : World) : World :=
  mkWorld (localStorage w) (matchMedia w) (root_attrs w) (f (doc_listeners w))
          (themeToggle w) (themeToggle_i w).

Definition set_themeToggle (f : option Element → option Element) (w : World) : World :=
  mkWorld (localStorage w) (matchMedia w) (root_attrs w) (doc_listeners w)
          (f (themeToggle w)) (themeToggle_i w).

Definition set_themeToggle_i (f : option Element → option Element) (w : World) : World :=
  mkWorld (localStorage w) (matchMedia w) (root_attrs w) (doc_listeners w)
          (themeToggle w) (f (themeToggle_i w)).

(** ** The monad of script code: state passing with exceptions *)

Inductive Result (A : Type) : Type :=
  | Ok (a : A) (w : World)
  | Throw (e : Exn) (w : World).
Arguments Ok {A} a w.
Arguments Throw {A} e w.

Definition M (A : Type) : Type := World → Result A.

Definition ret {A} (a : A) : M A := λ w, Ok a w.

Definition bind {A B} (m : M A) (k : A → M B) : M B := λ w,
  match m w with
  | Ok a w' => k a w'
  | Throw e w' => Throw e w'
  end.

Definition throw {A} (e : Exn) : M A := λ w, Throw e w.

Definition gets {A} (f : World → A) : M A := λ w, Ok (f w) w.

Definition modify (f : World → World) : M unit := λ w, Ok tt (f w).

Declare Scope js_scope.
Delimit Scope js_scope with js.
Notation "'const' x ':=' m ';' k" := (bind m (λ x, k))
  (at level 10, x name, m at level 100, k at level 200) : js_scope.
Notation "m ';;' k" := (bind m (λ _, k))
  (at level 100, k at level 200, right associativity) : js_scope.
Local Open Scope js_scope.

(** ** Host primitives *)

Module localStorage_.
(** [localStorage.getItem(key)]: the stored string, or [null]. *)
Definition getItem (key : string) : M value :=
  gets (λ w, of_lookup (localStorage w !! key)).

(** [localStorage.setItem(key, v)]: stores [String(v)], replacing any value. *)
Definition setItem (key : string) (v : value) : M unit :=
  modify (set_localStorage (insert key (to_string v))).
End localStorage_.

Module window.
(** [window.matchMedia(query).matches]. *)
Definition matchMedia_matches (query : string) : M bool :=
  gets (λ w, matchMedia w query).
End window.

Module document.
(** [document.documentElement.setAttribute(name, v)]. *)
Definition documentElement_setAttribute (name : string) (v : value) : M unit :=
  modify (set_root_attrs (insert name (to_string v))).

(** [document.documentElement.getAttribute(name)]. *)
Definition documentElement_getAttribute (name : string) : M value :=
  gets (λ w, of_lookup (root_attrs w !! name)).

(** [document.getElementById(id)], on a document whose only element with an
    id is the toggle button. *)
Definition getElementById (id : string) : M (option node) :=
  gets (λ w, if String.eqb id "themeToggle"
             then (λ _, ToggleButton) <$> themeToggle w
             else None).

(** [document.querySelector(sel)]; only the descendant selector the script
    uses is interpreted: the first [i] below the element with id
    [themeToggle]. *)
Definition querySelector (sel : string) : M (option node) :=
  gets (λ w, if String.eqb sel "#themeToggle i"
             then match themeToggle w with
                  | Some _ => (λ _, ToggleIcon) <$> themeToggle_i w
                  | None => None
                  end
             else None).

(** [document.addEventListener(type, l)]. *)
Definition addEventListener (type : string) (l : Listener) : M unit :=
  modify (set_doc_listeners (λ ls, (ls ++ [(type, l)])%list)).
End document.

(** Updating the element a reference points to; a reference to an element
    that has left the document updates nothing the document shows. *)
Definition update_node (n : node) (f : Element → Element) : World → World :=
  match n with
  | ToggleButton => set_themeToggle (fmap f)
  | ToggleIcon => set_themeToggle_i (fmap f)
  end.

(** [r.className = c]; a [TypeError] when [r] is [null]. *)
Definition set_className (r : option node) (c : string) : M unit :=
  match r with
  | None => throw TypeError
  | Some n => modify (update_node n (λ e, mkElement c (listeners e)))
  end.

(** [r.addEventListener(type, l)]; a [TypeError] when [r] is [null]. *)
Definition node_addEventListener (r : option node) (type : string) (l : Listener) : M unit :=
  match r with
  | None => throw TypeError
  | Some n => modify (update_node n (λ e, mkElement (className e) (listeners e ++ [(type, l)])%list))
  end.

(** ** The script *)

(** [const getStoredTheme = () => localStorage.getItem('theme');] *)
Definition getStoredTheme : M value :=
  localStorage_.getItem "theme".

(** [const setStoredTheme = theme => localStorage.setItem('theme', theme);] *)
Definition setStoredTheme (theme : value) : M unit :=
  localStorage_.setItem "theme" theme.

Definition getPreferredTheme : M value :=
  const storedTheme := getStoredTheme;
  if truthy storedTheme then
    ret storedTheme
  else
    const matches := window.matchMedia_matches "(prefers-color-scheme: dark)";
    ret (if matches then Str "dark" else Str "light").

Definition setTheme (theme : value) : M unit :=
  document.documentElement_setAttribute "data-bs-theme" theme;;
  const toggleBtn := document.querySelector "#themeToggle i";
  if truthy toggleBtn then
    if strict_eq theme (Str "dark") then
      set_className toggleBtn "bi bi-sun-fill fs-5"
    else
      set_className toggleBtn "bi bi-moon-stars-fill fs-5"
  else
    ret tt.

(** The click listener bound to the toggle button. *)
Definition click_handler : M unit :=
  const currentTheme := document.documentElement_getAttribute "data-bs-theme";
  const newTheme := ret (if strict_eq currentTheme (Str "dark") then Str "light" else Str "dark");
  setStoredTheme newTheme;;
  setTheme newTheme.

(** The [DOMContentLoaded] listener. *)
Definition domContentLoaded_handler : M unit :=
  const toggleBtn := document.getElementById "themeToggle";
  if truthy toggleBtn then
    node_addEventListener toggleBtn "click" OnToggleClick
  else
    ret tt.

(** Top level of the script: the init call, then the registration of the
    [DOMContentLoaded] listener. *)
Definition init : M unit :=
  const theme := getPreferredTheme;
  setTheme theme.

Definition script : M unit :=
  init;;
  document.addEventListener "DOMContentLoaded" OnDOMContentLoaded.

(** ** The page's lifetime: events the host delivers to the script *)

(** Calling a registered closure. *)
Definition call (l : Listener) : M unit :=
  match l with
  | OnDOMContentLoaded => domContentLoaded_handler
  | OnToggleClick => click_handler
  end.

(** Dispatching an event of type [type] to a snapshot of a target's
    listeners, in registration order. *)
Fixpoint dispatch (type : string) (ls : list (string * Listener)) : M unit :=
  match ls with
  | [] => ret tt
  | (ty, l) :: ls' =>
      (if String.eqb ty type then call l else ret tt);;
      dispatch type ls'
  end.

(** What the host does around the script: the parser (re)builds the toggle
    markup, with or without the button and its icon, each given by its
    [class] attribute; the document finishes parsing; the user clicks the
    toggle button. *)
Inductive Event : Type :=
  | Parsed (btn icon : option string)
  | DOMContentLoaded
  | Click.

#[global] Instance Event_eq_dec : EqDecision Event.
Proof. solve_decision. Defined.

Definition fire (e : Event) : M unit :=
  match e with
  | Parsed btn icon =>
      modify (λ w, set_themeToggle_i (λ _, (λ c, mkElement c []) <$> icon)
                     (set_themeToggle (λ _, (λ c, mkElement c []) <$> btn) w))
  | DOMContentLoaded =>
      const ls := gets doc_listeners;
      dispatch "DOMContentLoaded" ls
  | Click =>
      const btn := gets themeToggle;
      match btn with
      | Some b => dispatch "click" (listeners b)
      | None => ret tt
      end
  end.

Fixpoint run (es : list Event) : M unit :=
  match es with
  | [] => ret tt
  | e :: es' => fire e;; run es'
  end.

(** The script is evaluated, then the host delivers [es]. *)
Definition page (es : list Event) : M unit :=
  script;; run es.

(** ** Vocabulary of the specification *)

(** The two theme variants, and the strings that denote them. *)
Inductive Theme : Type :=
  | light
  | dark.

Definition theme_value (t : Theme) : value :=
  match t with
  | light => Str "light"
  | dark => Str "dark"
  end.
Coercion theme_value : Theme >-> value.

Definition is_theme (v : value) : Prop :=
  v = Str "light" ∨ v = Str "dark".

(** The Stored Preference, the Platform Signal and the Applied Theme, as
    the script reads them. *)
Definition stored (w : World) : value :=
  of_lookup (localStorage w !! "theme").

Definition platform_dark (w : World) : bool :=
  matchMedia w "(prefers-color-scheme: dark)".

Definition applied (w : World) : value :=
  of_lookup (root_attrs w !! "data-bs-theme").

(** The icon element the selector of [setTheme] resolves to. *)
Definition found_icon (w : World) : option Element :=
  match themeToggle w with
  | Some _ => themeToggle_i w
  | None => None
  end.

(** ** Closed forms used in the proofs *)

(** The value [getPreferredTheme] resolves to. *)
Definition preferred (w : World) : value :=
  if truthy (stored w) then stored w
  else if platform_dark w then Str "dark" else Str "light".

(** The class [setTheme] gives the icon for a theme value. *)
Definition icon_class (theme : value) : string :=
  if strict_eq theme (Str "dark") then "bi bi-sun-fill fs-5" else "bi bi-moon-stars-fill fs-5".

(** The icon update of [setTheme] as a function on worlds. *)
Definition paint_icon (theme : value) (w : World) : World :=
  match found_icon w with
  | Some _ => set_themeToggle_i (fmap (λ e, mkElement (icon_class theme) (listeners e))) w
  | None => w
  end.

Definition set_applied (theme : value) : World → World :=
  set_root_attrs (insert "data-bs-theme" (to_string theme)).

(** The value the click listener computes from the current attribute. *)
Definition flipped (currentTheme : value) : value :=
  if strict_eq currentTheme (Str "dark") then Str "light" else Str "dark".

(** The registration the [DOMContentLoaded] listener performs on the button. *)
Definition bind_click (e : Element) : Element :=
  mkElement (className e) (listeners e ++ [("click", OnToggleClick)]).

(** ** Sample worlds *)

(** A blank document (no attribute on the root, no toggle
    markup yet) with a given storage content and platform signal. *)
Definition blank (store : gmap string string) (prefers_dark : bool) : World :=
  mkWorld store (λ q, String.eqb q "(prefers-color-scheme: dark)" && prefers_dark) ∅ [] None None.

(** The same with the toggle button and its icon already in the document. *)
Definition with_toggle (store : gmap string string) (prefers_dark : bool) : World :=
  set_themeToggle_i (λ _, Some (mkElement "bi" []))
    (set_themeToggle (λ _, Some (mkElement "btn" [])) (blank store prefers_dark)).

(** ** Reading the state back through the script's own accessors *)

Lemma getStoredTheme_stored (w : World) : getStoredTheme w = Ok (stored w) w.
Proof. reflexivity. Qed.

Lemma getAttribute_applied (w : World) :
  document.documentElement_getAttribute "data-bs-theme" w = Ok (applied w) w.
Proof. reflexivity. Qed.

Lemma matches_platform_dark (w : World) :
  window.matchMedia_matches "(prefers-color-scheme: dark)" w = Ok (platform_dark w) w.
Proof. reflexivity. Qed.

Lemma bind_Ok {A B} (m : M A) (k : A → M B) (w w' : World) (a : A) :
  m w = Ok a w' → bind m k w = k a w'.
Proof. unfold bind. by intros ->. Qed.

Lemma truthy_Str_nonempty (s : string) : s ≠ "" → truthy (Str s) = true.
Proof.
  intros Hne. unfold truthy, value_truthy.
  by destruct (String.eqb_spec s "").
Qed.

(** ** Preference resolution *)

(** Closed form of [getPreferredTheme]: it never changes the world, and its
    answer depends on the stored value and the platform signal only. *)
Lemma getPreferredTheme_eq (w : World) :
  getPreferredTheme w = Ok (preferred w) w.
Proof.
  unfold getPreferredTheme, preferred.
  rewrite (bind_Ok _ _ _ _ _ (getStoredTheme_stored w)).
  destruct (truthy (stored w)); [done|].
  by rewrite (bind_Ok _ _ _ _ _ (matches_platform_dark w)).
Qed.

(** ** The scenario of the specification, evaluated

    A fresh session on a dark platform, with the toggle already in the
    document: the load applies dark and shows the sun icon; one click gives
    light, stores light and shows the moon icon; a reload with light stored
    applies light whatever the platform says. *)

Example scenario_fresh_load :
  ∃ w, page [DOMContentLoaded] (with_toggle ∅ true) = Ok tt w ∧
       applied w = Str "dark" ∧
       stored w = Null ∧
       className <$> found_icon w = Some "bi bi-sun-fill fs-5" ∧
       listeners <$> themeToggle w = Some [("click", OnToggleClick)].
Proof. eexists. repeat split; reflexivity. Qed.

Example scenario_first_click :
  ∃ w, page [DOMContentLoaded; Click] (with_toggle ∅ true) = Ok tt w ∧
       applied w = Str "light" ∧
       stored w = Str "light" ∧
       className <$> found_icon w = Some "bi bi-moon-stars-fill fs-5".
Proof. eexists. repeat split; reflexivity. Qed.

Example scenario_reload :
  ∃ w, page [DOMContentLoaded] (with_toggle {[ "theme" := "light" ]} true) = Ok tt w ∧
       applied w = Str "light" ∧
       stored w = Str "light" ∧
       className <$> found_icon w = Some "bi bi-moon-stars-fill fs-5".
Proof. eexists. repeat split; reflexivity. Qed.

(** A button parsed after the script ran still gets its listener, and the
    icon is first painted by the click. *)
Example scenario_late_toggle :
  ∃ w1 w2,
    page [Parsed (Some "btn") (Some "bi"); DOMContentLoaded] (blank ∅ false) = Ok tt w1 ∧
    applied w1 = Str "light" ∧
    className <$> found_icon w1 = Some "bi" ∧
    fire Click w1 = Ok tt w2 ∧
    applied w2 = Str "dark" ∧
    stored w2 = Str "dark" ∧
    className <$> found_icon w2 = Some "bi bi-sun-fill fs-5".
Proof. eexists. eexists. repeat split; reflexivity. Qed.

(** ** Preference resolution: the claims *)

(** C1 (as amended): whatever the prior state of the Store, a non-empty
    string stored under the theme key is what [getPreferredTheme] returns,
    whichever answer the platform's colour-scheme query gives. *)
Theorem stored_preference_dominates (w : World) (s : string) (m : string → bool) :
  localStorage w !! "theme" = Some s →
  s ≠ "" →
  getPreferredTheme (set_matchMedia m w) = Ok (Str s) (set_matchMedia m w).
Proof.
  intros Hs Hne. rewrite getPreferredTheme_eq.
  unfold preferred, stored. simpl. rewrite Hs. simpl.
  by rewrite (truthy_Str_nonempty s Hne).
Qed.

Lemma stored_preference_dominates_witness :
  localStorage (blank {[ "theme" := "light" ]} false) !! "theme" = Some "light" ∧
  "light" ≠ "" ∧
  getPreferredTheme (set_matchMedia (λ _, true) (blank {[ "theme" := "light" ]} false))
  = Ok (Str "light") (set_matchMedia (λ _, true) (blank {[ "theme" := "light" ]} false)).
Proof.
  split; [reflexivity|]. split; [discriminate|].
  apply (stored_preference_dominates (blank {[ "theme" := "light" ]} false) "light" (λ _, true)).
  - reflexivity.
  - discriminate.
Defined.

(** C1 as stated fails on the empty string: it is present in the Store, yet
    the answer is not the stored value and follows the platform signal. *)
Lemma empty_stored_preference_not_returned :
  localStorage (blank {[ "theme" := "" ]} true) !! "theme" = Some "" ∧
  localStorage (blank {[ "theme" := "" ]} false) !! "theme" = Some "" ∧
  getPreferredTheme (blank {[ "theme" := "" ]} true)
    = Ok (Str "dark") (blank {[ "theme" := "" ]} true) ∧
  getPreferredTheme (blank {[ "theme" := "" ]} false)
    = Ok (Str "light") (blank {[ "theme" := "" ]} false) ∧
  getPreferredTheme (blank {[ "theme" := "" ]} true)
    ≠ Ok (Str "") (blank {[ "theme" := "" ]} true).
Proof. repeat split; try reflexivity. discriminate. Qed.

(** C5: with nothing stored under the theme key, [getPreferredTheme]
    answers dark when the platform query matches and light when it does
    not. *)
Theorem absent_preference_follows_platform (w : World) :
  getStoredTheme w = Ok Null w →
  getPreferredTheme w = Ok (if platform_dark w then Str "dark" else Str "light") w.
Proof.
  rewrite getStoredTheme_stored. intros Hs.
  rewrite getPreferredTheme_eq. unfold preferred.
  assert (stored w = Null) as -> by congruence.
  reflexivity.
Qed.

Lemma absent_preference_follows_platform_witness :
  getStoredTheme (blank ∅ true) = Ok Null (blank ∅ true) ∧
  getStoredTheme (blank ∅ false) = Ok Null (blank ∅ false) ∧
  getPreferredTheme (blank ∅ true) = Ok (Str "dark") (blank ∅ true) ∧
  getPreferredTheme (blank ∅ false) = Ok (Str "light") (blank ∅ false).
Proof.
  split; [reflexivity|]. split; [reflexivity|].
  split.
  - apply (absent_preference_follows_platform (blank ∅ true)). reflexivity.
  - apply (absent_preference_follows_platform (blank ∅ false)). reflexivity.
Defined.

(** C9: an empty string stored under the theme key fails the truthiness
    test, so [getPreferredTheme] answers from the platform signal, exactly
    as it does once the key is removed. *)
Theorem empty_preference_treated_as_absent (w : World) :
  getStoredTheme w = Ok (Str "") w →
  getPreferredTheme w = Ok (if platform_dark w then Str "dark" else Str "light") w ∧
  ∃ v, getPreferredTheme w = Ok v w ∧
       getPreferredTheme (set_localStorage (delete "theme") w)
       = Ok v (set_localStorage (delete "theme") w).
Proof.
  rewrite getStoredTheme_stored. intros Hs.
  assert (stored w = Str "") as Hs' by congruence.
  assert (getPreferredTheme w
          = Ok (if platform_dark w then Str "dark" else Str "light") w) as Hw.
  { rewrite getPreferredTheme_eq. unfold preferred. rewrite Hs'. reflexivity. }
  split; [exact Hw|].
  eexists. split; [exact Hw|].
  rewrite getPreferredTheme_eq. unfold preferred, stored. simpl.
  by rewrite lookup_delete_eq.
Qed.

Lemma empty_preference_treated_as_absent_witness :
  getStoredTheme (blank {[ "theme" := "" ]} true)
  = Ok (Str "") (blank {[ "theme" := "" ]} true) ∧
  getPreferredTheme (blank {[ "theme" := "" ]} true)
  = Ok (Str "dark") (blank {[ "theme" := "" ]} true).
Proof.
  split; [reflexivity|].
  apply (empty_preference_treated_as_absent (blank {[ "theme" := "" ]} true)).
  reflexivity.
Defined.

(** ** Theme application *)

Lemma querySelector_found (w : World) :
  document.querySelector "#themeToggle i" w = Ok ((λ _, ToggleIcon) <$> found_icon w) w.
Proof.
  unfold document.querySelector, gets, found_icon. simpl.
  by destruct (themeToggle w).
Qed.

Lemma strict_eq_decide (a b : value) : strict_eq a b = bool_decide (a = b).
Proof.
  destruct a as [|s], b as [|t]; simpl; try done.
  destruct (String.eqb_spec s t) as [->|Hne].
  - by rewrite bool_decide_eq_true_2.
  - rewrite bool_decide_eq_false_2; [done|]. congruence.
Qed.

(** Closed form of [setTheme]. *)
Lemma setTheme_eq (theme : value) (w : World) :
  setTheme theme w = Ok tt (paint_icon theme (set_applied theme w)).
Proof.
  unfold setTheme.
  rewrite (bind_Ok _ _ w (set_applied theme w) tt) by reflexivity.
  rewrite (bind_Ok _ _ _ _ _ (querySelector_found (set_applied theme w))).
  unfold paint_icon, icon_class.
  destruct (found_icon (set_applied theme w)) as [e|]; simpl; [|done].
  by destruct (strict_eq theme (Str "dark")).
Qed.

Lemma paint_icon_idemp (theme : value) (w : World) :
  paint_icon theme (paint_icon theme w) = paint_icon theme w.
Proof.
  unfold paint_icon, found_icon.
  destruct w as [ls mm ra dl [b|] [i|]]; simpl; done.
Qed.

Lemma set_applied_paint_icon (theme theme' : value) (w : World) :
  set_applied theme (paint_icon theme' w) = paint_icon theme' (set_applied theme w).
Proof.
  unfold paint_icon, found_icon, set_applied.
  destruct w as [ls mm ra dl [b|] [i|]]; simpl; done.
Qed.

Lemma set_applied_idemp (theme : value) (w : World) :
  set_applied theme (set_applied theme w) = set_applied theme w.
Proof.
  unfold set_applied, set_root_attrs. simpl.
  by rewrite insert_insert_eq.
Qed.

(** C3: for each of the two themes [setTheme] leaves exactly that theme on
    the root attribute; for any value, it writes the root attribute, gives a
    found icon the sun class for dark and the moon class otherwise, and
    leaves a document without the icon untouched apart from the root
    attribute. *)
Theorem setTheme_effect (t : Theme) (v : value) (w : World) :
  (∃ w', setTheme t w = Ok tt w' ∧
         document.documentElement_getAttribute "data-bs-theme" w' = Ok (t : value) w') ∧
  (∃ w', setTheme v w = Ok tt w' ∧
         root_attrs w' = <["data-bs-theme" := to_string v]> (root_attrs w) ∧
         localStorage w' = localStorage w ∧
         matchMedia w' = matchMedia w ∧
         doc_listeners w' = doc_listeners w ∧
         themeToggle w' = themeToggle w ∧
         match found_icon w with
         | Some e =>
             themeToggle_i w' =
               Some (mkElement (if decide (v = Str "dark")
                                then "bi bi-sun-fill fs-5"
                                else "bi bi-moon-stars-fill fs-5") (listeners e))
         | None => themeToggle_i w' = themeToggle_i w
         end).
Proof.
  split.
  - eexists. split; [apply setTheme_eq|].
    rewrite getAttribute_applied. f_equal.
    unfold applied, paint_icon, found_icon, set_applied.
    destruct w as [ls mm ra dl [b|] [i|]], t; simpl;
      by rewrite lookup_insert_eq.
  - eexists. split; [apply setTheme_eq|].
    unfold paint_icon, found_icon, set_applied, icon_class.
    rewrite strict_eq_decide.
    destruct w as [ls mm ra dl [b|] [i|]]; simpl; repeat split; try done.
    by destruct (decide (v = Str "dark")) as [->|Hne];
      [rewrite bool_decide_eq_true_2|rewrite bool_decide_eq_false_2].
Qed.

(** C6: a second [setTheme] with the same argument changes nothing: root
    attribute, icon class and every other part of the world are those left
    by the first call. *)
Theorem setTheme_idempotent (t : value) (w : World) :
  (setTheme t;; setTheme t) w = setTheme t w ∧
  ∃ w1 w2, setTheme t w = Ok tt w1 ∧ setTheme t w1 = Ok tt w2 ∧
           root_attrs w2 = root_attrs w1 ∧ themeToggle_i w2 = themeToggle_i w1.
Proof.
  assert (paint_icon t (set_applied t (paint_icon t (set_applied t w)))
          = paint_icon t (set_applied t w)) as Hfix.
  { by rewrite set_applied_paint_icon, set_applied_idemp, paint_icon_idemp. }
  split.
  - rewrite (bind_Ok _ _ _ _ _ (setTheme_eq t w)).
    by rewrite !setTheme_eq, Hfix.
  - exists (paint_icon t (set_applied t w)), (paint_icon t (set_applied t w)).
    split; [apply setTheme_eq|].
    split; [by rewrite setTheme_eq, Hfix|done].
Qed.

(** ** The toggle *)

Lemma flipped_decide (v : value) :
  flipped v = if decide (v = Str "dark") then Str "light" else Str "dark".
Proof.
  unfold flipped. rewrite strict_eq_decide.
  by destruct (decide (v = Str "dark")) as [->|Hne];
    [rewrite bool_decide_eq_true_2|rewrite bool_decide_eq_false_2].
Qed.

Lemma flipped_is_theme (v : value) : is_theme (flipped v).
Proof. unfold flipped, is_theme. destruct (strict_eq _ _); auto. Qed.

Lemma to_string_flipped (v : value) : Str (to_string (flipped v)) = flipped v.
Proof. unfold flipped. by destruct (strict_eq _ _). Qed.

(** Closed form of the click listener. *)
Lemma click_handler_eq (w : World) :
  click_handler w =
    Ok tt (paint_icon (flipped (applied w))
             (set_applied (flipped (applied w))
                (set_localStorage (insert "theme" (to_string (flipped (applied w)))) w))).
Proof.
  unfold click_handler.
  rewrite (bind_Ok _ _ _ _ _ (getAttribute_applied w)).
  rewrite (bind_Ok _ _ w w (flipped (applied w))) by reflexivity.
  rewrite (bind_Ok _ _ w
             (set_localStorage (insert "theme" (to_string (flipped (applied w)))) w) tt)
    by reflexivity.
  apply setTheme_eq.
Qed.

Lemma click_handler_seq (w : World) :
  click_handler w = (setStoredTheme (flipped (applied w));; setTheme (flipped (applied w))) w.
Proof.
  rewrite click_handler_eq.
  rewrite (bind_Ok _ _ w
             (set_localStorage (insert "theme" (to_string (flipped (applied w)))) w) tt)
    by reflexivity.
  by rewrite setTheme_eq.
Qed.

Lemma stored_after_click (v : value) (w : World) :
  stored (paint_icon v (set_applied v (set_localStorage (insert "theme" (to_string v)) w)))
  = Str (to_string v).
Proof.
  unfold stored, paint_icon, found_icon, set_applied.
  destruct w as [ls mm ra dl [b|] [i|]]; simpl; by rewrite lookup_insert_eq.
Qed.

Lemma applied_after_setTheme (v : value) (w : World) :
  applied (paint_icon v (set_applied v w)) = Str (to_string v).
Proof.
  unfold applied, paint_icon, found_icon, set_applied.
  destruct w as [ls mm ra dl [b|] [i|]]; simpl; by rewrite lookup_insert_eq.
Qed.

Lemma localStorage_after_setTheme (v : value) (w : World) :
  localStorage (paint_icon v (set_applied v w)) = localStorage w.
Proof.
  unfold paint_icon, found_icon, set_applied.
  by destruct w as [ls mm ra dl [b|] [i|]].
Qed.

Lemma doc_listeners_after_setTheme (v : value) (w : World) :
  doc_listeners (paint_icon v (set_applied v w)) = doc_listeners w.
Proof.
  unfold paint_icon, found_icon, set_applied.
  by destruct w as [ls mm ra dl [b|] [i|]].
Qed.

(** Closed form of the [DOMContentLoaded] listener. *)
Lemma domContentLoaded_handler_eq (w : World) :
  domContentLoaded_handler w =
    Ok tt (match themeToggle w with
           | Some _ => set_themeToggle (fmap bind_click) w
           | None => w
           end).
Proof.
  unfold domContentLoaded_handler, document.getElementById, bind, gets. simpl.
  by destruct (themeToggle w).
Qed.

(** ** Invariants of the page's lifetime *)

Section Invariants.
(** [P] is a property of worlds, [Q] singles out the listeners and [E] the
    events under which it is kept. *)
Variable P : World → Prop.
Variable Q : Listener → Prop.
Variable E : Event → Prop.

Hypothesis call_keeps : ∀ l w, Q l → P w → ∃ w', call l w = Ok tt w' ∧ P w'.

Lemma dispatch_keeps (type : string) (ls : list (string * Listener)) (w : World) :
  Forall (λ tl, Q tl.2) ls → P w → ∃ w', dispatch type ls w = Ok tt w' ∧ P w'.
Proof.
  intros Hls. revert w.
  induction Hls as [|[ty l] ls Hl _ IH]; intros w HP; simpl.
  - by exists w.
  - destruct (String.eqb ty type).
    + destruct (call_keeps l w Hl HP) as (w1 & Hcall & HP1).
      rewrite (bind_Ok _ _ _ _ _ Hcall). by apply IH.
    + rewrite (bind_Ok _ _ w w tt) by reflexivity. by apply IH.
Qed.

Hypothesis fire_keeps : ∀ e w, E e → P w → ∃ w', fire e w = Ok tt w' ∧ P w'.

Lemma run_keeps (es : list Event) (w : World) :
  Forall E es → P w → ∃ w', run es w = Ok tt w' ∧ P w'.
Proof.
  intros Hes. revert w.
  induction Hes as [|e es He _ IH]; intros w HP; simpl.
  - by exists w.
  - destruct (fire_keeps e w He HP) as (w1 & Hfire & HP1).
    rewrite (bind_Ok _ _ _ _ _ Hfire). by apply IH.
Qed.
End Invariants.

Lemma preferred_is_string (w : World) : Str (to_string (preferred w)) = preferred w.
Proof.
  unfold preferred.
  destruct (stored w) as [|s]; unfold truthy, value_truthy.
  - by destruct (platform_dark w).
  - destruct (String.eqb s ""); simpl; [|done]. by destruct (platform_dark w).
Qed.

Lemma init_eq (w : World) :
  init w = Ok tt (paint_icon (preferred w) (set_applied (preferred w) w)).
Proof.
  unfold init.
  rewrite (bind_Ok _ _ _ _ _ (getPreferredTheme_eq w)).
  apply setTheme_eq.
Qed.

Lemma script_eq (w : World) :
  script w =
    Ok tt (set_doc_listeners (λ ls, (ls ++ [("DOMContentLoaded", OnDOMContentLoaded)])%list)
             (paint_icon (preferred w) (set_applied (preferred w) w))).
Proof.
  unfold script.
  by rewrite (bind_Ok _ _ _ _ _ (init_eq w)).
Qed.

(** A property access on [null] does raise: the guards of the script are
    what keeps it from happening. *)
Example unguarded_access_throws (w : World) :
  set_className None "bi bi-sun-fill fs-5" w = Throw TypeError w ∧
  node_addEventListener None "click" OnToggleClick w = Throw TypeError w.
Proof. split; reflexivity. Qed.

(** Neither listener can raise an exception, whatever the document holds. *)
Lemma call_total (l : Listener) (w : World) : ∃ w', call l w = Ok tt w'.
Proof.
  destruct l; simpl; eexists.
  - apply domContentLoaded_handler_eq.
  - apply click_handler_eq.
Qed.

Lemma fire_total (e : Event) (w : World) : ∃ w', fire e w = Ok tt w'.
Proof.
  assert (∀ type ls w0, ∃ w', dispatch type ls w0 = Ok tt w' ∧ True) as Hd.
  { intros type ls w0.
    apply (dispatch_keeps (λ _, True) (λ _, True)); [|by apply Forall_true|done].
    intros l w1 _ _. destruct (call_total l w1) as [w2 H2]. eauto. }
  destruct e as [btn icon| |]; simpl.
  - by eexists.
  - rewrite (bind_Ok _ _ w w (doc_listeners w)) by reflexivity.
    destruct (Hd "DOMContentLoaded" (doc_listeners w) w) as (w' & H & _). eauto.
  - rewrite (bind_Ok _ _ w w (themeToggle w)) by reflexivity.
    destruct (themeToggle w) as [b|]; [|by eexists].
    destruct (Hd "click" (listeners b) w) as (w' & H & _). eauto.
Qed.

Lemma run_total (es : list Event) (w : World) : ∃ w', run es w = Ok tt w'.
Proof.
  destruct (run_keeps (λ _, True) (λ _, True)) with (es := es) (w := w)
    as (w' & H & _); [|by apply Forall_true|done|eauto].
  intros e w0 _ _. destruct (fire_total e w0) as [w1 H1]. eauto.
Qed.

(** C7: a missing toggle button makes the [DOMContentLoaded] listener bind
    nothing and return normally, after which every further event is handled
    without an exception; a missing icon makes [setTheme] set the root
    attribute, change nothing else and return normally. *)
Theorem missing_elements_are_not_errors (w : World) (t : value) (es : list Event) :
  (document.getElementById "themeToggle" w = Ok None w →
   domContentLoaded_handler w = Ok tt w ∧
   ∃ w', (domContentLoaded_handler;; run es) w = Ok tt w') ∧
  (document.querySelector "#themeToggle i" w = Ok None w →
   setTheme t w = Ok tt (set_root_attrs (insert "data-bs-theme" (to_string t)) w) ∧
   document.documentElement_getAttribute "data-bs-theme"
     (set_root_attrs (insert "data-bs-theme" (to_string t)) w)
   = Ok (Str (to_string t)) (set_root_attrs (insert "data-bs-theme" (to_string t)) w)).
Proof.
  split.
  - intros Hnone.
    assert (themeToggle w = None) as Hb.
    { unfold document.getElementById, gets in Hnone. simpl in Hnone.
      by destruct (themeToggle w). }
    assert (domContentLoaded_handler w = Ok tt w) as Hh.
    { by rewrite domContentLoaded_handler_eq, Hb. }
    split; [done|].
    rewrite (bind_Ok _ _ _ _ _ Hh). apply run_total.
  - intros Hnone.
    assert (found_icon w = None) as Hi.
    { rewrite querySelector_found in Hnone.
      by destruct (found_icon w). }
    split.
    + rewrite setTheme_eq. unfold paint_icon.
      replace (found_icon (set_applied t w)) with (found_icon w); [by rewrite Hi|].
      by destruct w.
    + rewrite getAttribute_applied. unfold applied. simpl.
      by rewrite lookup_insert_eq.
Qed.

Lemma missing_elements_are_not_errors_witness :
  (document.getElementById "themeToggle" (blank ∅ false) = Ok None (blank ∅ false) ∧
   domContentLoaded_handler (blank ∅ false) = Ok tt (blank ∅ false)) ∧
  (document.querySelector "#themeToggle i" (blank ∅ false) = Ok None (blank ∅ false) ∧
   setTheme (Str "dark") (blank ∅ false)
   = Ok tt (set_root_attrs (insert "data-bs-theme" "dark") (blank ∅ false))).
Proof.
  split; (split; [reflexivity|]).
  - apply (missing_elements_are_not_errors (blank ∅ false) (Str "dark") [Click]).
    reflexivity.
  - apply (missing_elements_are_not_errors (blank ∅ false) (Str "dark") [Click]).
    reflexivity.
Defined.

(** A property kept by both listeners and by the parser's changes to the
    toggle markup is kept by every event. *)
Lemma fire_keeps_all (P : World → Prop) :
  (∀ l w, P w → ∃ w', call l w = Ok tt w' ∧ P w') →
  (∀ b i w, P w → P (set_themeToggle_i (λ _, i) (set_themeToggle (λ _, b) w))) →
  ∀ e w, P w → ∃ w', fire e w = Ok tt w' ∧ P w'.
Proof.
  intros Hcall Hparsed e w HP.
  assert (∀ type ls w0, P w0 → ∃ w', dispatch type ls w0 = Ok tt w' ∧ P w') as Hd.
  { intros type ls w0 HP0.
    apply (dispatch_keeps P (λ _, True)); [|by apply Forall_true|done].
    intros l w1 _. apply Hcall. }
  destruct e as [btn icon| |]; simpl.
  - eexists. split; [reflexivity|]. by apply Hparsed.
  - rewrite (bind_Ok _ _ w w (doc_listeners w)) by reflexivity. by apply Hd.
  - rewrite (bind_Ok _ _ w w (themeToggle w)) by reflexivity.
    destruct (themeToggle w) as [b|]; [by apply Hd|by exists w].
Qed.

Lemma page_keeps (P : World → Prop) (es : list Event) (w : World) :
  (∀ l w, P w → ∃ w', call l w = Ok tt w' ∧ P w') →
  (∀ b i w, P w → P (set_themeToggle_i (λ _, i) (set_themeToggle (λ _, b) w))) →
  (∀ f w, P w → P (set_doc_listeners f w)) →
  P (paint_icon (preferred w) (set_applied (preferred w) w)) →
  ∃ w', page es w = Ok tt w' ∧ P w'.
Proof.
  intros Hcall Hparsed Hdoc Hinit. unfold page.
  rewrite (bind_Ok _ _ _ _ _ (script_eq w)).
  apply (run_keeps P (λ _, True)); [|by apply Forall_true|by apply Hdoc].
  intros e w0 _. by apply fire_keeps_all.
Qed.

Lemma applied_after_bind (w : World) :
  applied (match themeToggle w with
           | Some _ => set_themeToggle (fmap bind_click) w
           | None => w
           end) = applied w.
Proof. by destruct (themeToggle w). Qed.

Lemma localStorage_after_bind (w : World) :
  localStorage (match themeToggle w with
                | Some _ => set_themeToggle (fmap bind_click) w
                | None => w
                end) = localStorage w.
Proof. by destruct (themeToggle w). Qed.

Lemma doc_listeners_after_bind (w : World) :
  doc_listeners (match themeToggle w with
                 | Some _ => set_themeToggle (fmap bind_click) w
                 | None => w
                 end) = doc_listeners w.
Proof. by destruct (themeToggle w). Qed.

(** C2 as stated fails: a stored string that is no theme is applied to the
    root attribute as it is, by the load-time call and until the first
    click. *)
Lemma corrupt_store_reaches_root_attribute :
  ∃ w', page [Parsed (Some "btn") (Some "bi"); DOMContentLoaded]
             (blank {[ "theme" := "blue" ]} true) = Ok tt w' ∧
        applied w' = Str "blue" ∧
        ¬ is_theme (applied w').
Proof.
  eexists. split; [reflexivity|].
  split; [reflexivity|].
  intros [H|H]; discriminate H.
Qed.

(** C2 (as amended): the load-time call leaves the result of
    [getPreferredTheme] on the root attribute, whatever the Store holds.  At
    every later point the applied theme is light or dark, or it is still
    that load-time result, the very string the Store held, with the Store
    not written since.  When the Store holds no theme value, the empty
    string, light or dark as the script is evaluated, the result of
    [getPreferredTheme] is light or dark and so is the applied theme after
    the load and after every later event. *)
Theorem applied_theme_valid_after_load (w : World) (es : list Event) :
  (∃ v w1, getPreferredTheme w = Ok v w ∧ init w = Ok tt w1 ∧ applied w1 = v) ∧
  (∃ w', page es w = Ok tt w' ∧
         (is_theme (applied w') ∨
          (getPreferredTheme w = Ok (applied w') w ∧
           applied w' = stored w ∧
           localStorage w' = localStorage w))) ∧
  (stored w = Null ∨ stored w = Str "" ∨ is_theme (stored w) →
   (∃ v, getPreferredTheme w = Ok v w ∧ is_theme v) ∧
   (∃ w', page es w = Ok tt w' ∧ is_theme (applied w'))).
Proof.
  assert (∀ P : World → Prop,
            (∀ w0, P w0 → P (paint_icon (flipped (applied w0))
                               (set_applied (flipped (applied w0))
                                  (set_localStorage
                                     (insert "theme" (to_string (flipped (applied w0)))) w0)))) →
            (∀ w0 w1, applied w1 = applied w0 → localStorage w1 = localStorage w0 →
                      P w0 → P w1) →
            P (paint_icon (preferred w) (set_applied (preferred w) w)) →
            ∃ w', page es w = Ok tt w' ∧ P w') as Hkeep.
  { intros P Hclick Hframe Hinit. apply (page_keeps P); [| | |done].
    - intros [|] w0 HP; simpl; eexists.
      + split; [apply domContentLoaded_handler_eq|].
        apply (Hframe w0); [apply applied_after_bind|apply localStorage_after_bind|done].
      + split; [apply click_handler_eq|]. by apply Hclick.
    - intros b i w0 HP. apply (Hframe w0); [by destruct w0..|done].
    - intros f w0 HP. apply (Hframe w0); [by destruct w0..|done]. }
  split; [|split].
  - exists (preferred w). eexists.
    split; [apply getPreferredTheme_eq|].
    split; [apply init_eq|].
    by rewrite applied_after_setTheme, preferred_is_string.
  - destruct (Hkeep (λ w0, is_theme (applied w0) ∨
                           (preferred w = applied w0 ∧
                            applied w0 = stored w ∧
                            localStorage w0 = localStorage w)))
      as (w' & Hrun & HP).
    + intros w0 _. left.
      rewrite applied_after_setTheme, to_string_flipped. apply flipped_is_theme.
    + intros w0 w1 Happ Hls. by rewrite Happ, Hls.
    + rewrite applied_after_setTheme, preferred_is_string, localStorage_after_setTheme.
      unfold preferred. destruct (truthy (stored w)) eqn:Ht.
      * by right.
      * left. unfold is_theme. destruct (platform_dark w); auto.
    + exists w'. split; [done|].
      destruct HP as [HP|(Hpref & Hst & Hls)]; [by left|right].
      split; [|done]. by rewrite getPreferredTheme_eq, Hpref.
  - intros Hstored.
    assert (is_theme (preferred w)) as Hpref.
    { unfold preferred, is_theme.
      destruct Hstored as [->|[->|[->| ->]]]; simpl; try destruct (platform_dark w); auto. }
    split.
    + exists (preferred w). split; [apply getPreferredTheme_eq|done].
    + apply (Hkeep (λ w0, is_theme (applied w0))).
      * intros w0 _.
        rewrite applied_after_setTheme, to_string_flipped. apply flipped_is_theme.
      * intros w0 w1 Happ _. by rewrite Happ.
      * by rewrite applied_after_setTheme, preferred_is_string.
Qed.

Lemma applied_theme_valid_after_load_witness :
  is_theme (stored (blank {[ "theme" := "dark" ]} false)) ∧
  ∃ w', page [Parsed (Some "btn") (Some "bi"); DOMContentLoaded; Click; Click; Click]
             (blank {[ "theme" := "dark" ]} false) = Ok tt w' ∧
        is_theme (applied w').
Proof.
  split; [right; reflexivity|].
  apply (applied_theme_valid_after_load (blank {[ "theme" := "dark" ]} false)).
  right. right. right. reflexivity.
Defined.

(** C8 as stated fails: with the Store untouched between two calls, the
    answer still changes when the platform signal does. *)
Lemma platform_change_changes_result :
  localStorage (set_matchMedia (λ _, false) (blank ∅ true)) = localStorage (blank ∅ true) ∧
  getPreferredTheme (blank ∅ true) = Ok (Str "dark") (blank ∅ true) ∧
  getPreferredTheme (set_matchMedia (λ _, false) (blank ∅ true))
  = Ok (Str "light") (set_matchMedia (λ _, false) (blank ∅ true)) ∧
  ¬ ∃ v, getPreferredTheme (blank ∅ true) = Ok v (blank ∅ true) ∧
         getPreferredTheme (set_matchMedia (λ _, false) (blank ∅ true))
         = Ok v (set_matchMedia (λ _, false) (blank ∅ true)).
Proof.
  split; [reflexivity|]. split; [reflexivity|]. split; [reflexivity|].
  intros (v & H1 & H2).
  assert (v = Str "dark") as Hd by (by injection H1).
  assert (v = Str "light") as Hl by (by injection H2).
  rewrite Hd in Hl. discriminate Hl.
Qed.

(** C8 (as amended): [getPreferredTheme] returns without changing the
    world; in two worlds that hold the same value under the theme key and
    give the same answer to the colour-scheme query it returns the same
    result, however the rest of the worlds differ; the load path keeps the
    Store as it was, and so does every sequence of events without a click
    when no listener was registered before the script ran: a preference
    that was absent stays absent until the first click. *)
Theorem resolution_leaves_store_untouched (w w' : World) (es : list Event) :
  (∃ v, getPreferredTheme w = Ok v w ∧
        (getPreferredTheme;; getPreferredTheme) w = Ok v w) ∧
  (stored w' = stored w → platform_dark w' = platform_dark w →
   ∃ v, getPreferredTheme w = Ok v w ∧ getPreferredTheme w' = Ok v w') ∧
  (∃ w1, init w = Ok tt w1 ∧ localStorage w1 = localStorage w ∧ stored w1 = stored w) ∧
  (doc_listeners w = [] → Click ∉ es →
   ∃ w2, page es w = Ok tt w2 ∧ localStorage w2 = localStorage w ∧ stored w2 = stored w).
Proof.
  split; [|split; [|split]].
  - eexists. split; [apply getPreferredTheme_eq|].
    rewrite (bind_Ok _ _ _ _ _ (getPreferredTheme_eq w)).
    apply getPreferredTheme_eq.
  - intros Hs' Hm'.
    exists (preferred w). split; [apply getPreferredTheme_eq|].
    rewrite getPreferredTheme_eq. unfold preferred. by rewrite Hs', Hm'.
  - eexists. split; [apply init_eq|].
    unfold stored. by rewrite localStorage_after_setTheme.
  - intros Hpristine Hes.
    set (P := λ w0, localStorage w0 = localStorage w ∧
                    Forall (λ tl : string * Listener, tl.2 = OnDOMContentLoaded)
                           (doc_listeners w0)).
    assert (∃ w2, page es w = Ok tt w2 ∧ P w2) as (w2 & Hrun & Hstore & _).
    { unfold page. rewrite (bind_Ok _ _ _ _ _ (script_eq w)).
      apply (run_keeps P (λ e, e ≠ Click)).
      - intros e w0 He [Hs Hl].
        destruct e as [btn icon| |]; simpl; [| |done].
        + eexists. split; [reflexivity|]. by split.
        + rewrite (bind_Ok _ _ w0 w0 (doc_listeners w0)) by reflexivity.
          apply (dispatch_keeps P (λ l, l = OnDOMContentLoaded)); [|done|by split].
          intros l w1 -> [Hs1 Hl1]. simpl. eexists.
          split; [apply domContentLoaded_handler_eq|].
          split; [by rewrite localStorage_after_bind|by rewrite doc_listeners_after_bind].
      - apply Forall_forall. intros e He ->. by apply Hes.
      - split; simpl.
        + by rewrite localStorage_after_setTheme.
        + rewrite doc_listeners_after_setTheme, Hpristine. simpl.
          by repeat constructor. }
    exists w2. split; [done|]. split; [done|].
    unfold stored. by rewrite Hstore.
Qed.

Lemma resolution_leaves_store_untouched_witness :
  (stored (with_toggle {[ "lang" := "en" ]} true) = stored (blank ∅ true) ∧
   platform_dark (with_toggle {[ "lang" := "en" ]} true) = platform_dark (blank ∅ true) ∧
   ∃ v, getPreferredTheme (blank ∅ true) = Ok v (blank ∅ true) ∧
        getPreferredTheme (with_toggle {[ "lang" := "en" ]} true)
        = Ok v (with_toggle {[ "lang" := "en" ]} true)) ∧
  (doc_listeners (blank ∅ true) = [] ∧
   (Click ∉ [Parsed (Some "btn") (Some "bi"); DOMContentLoaded; Parsed None None]) ∧
   ∃ w2, page [Parsed (Some "btn") (Some "bi"); DOMContentLoaded; Parsed None None]
              (blank ∅ true) = Ok tt w2 ∧
         localStorage w2 = localStorage (blank ∅ true) ∧
         stored w2 = stored (blank ∅ true)).
Proof.
  assert (Click ∉ [Parsed (Some "btn") (Some "bi"); DOMContentLoaded; Parsed None None])
    as Hes.
  { intros H. repeat (apply elem_of_cons in H as [H|H]; [discriminate H|]).
    by apply elem_of_nil in H. }
  split.
  - split; [reflexivity|]. split; [reflexivity|].
    apply (resolution_leaves_store_untouched (blank ∅ true)
             (with_toggle {[ "lang" := "en" ]} true) []); reflexivity.
  - split; [reflexivity|]. split; [exact Hes|].
    apply (resolution_leaves_store_untouched (blank ∅ true) (blank ∅ true)
             [Parsed (Some "btn") (Some "bi"); DOMContentLoaded; Parsed None None]).
    + reflexivity.
    + exact Hes.
Defined.

(** C10: whatever the root attribute holds at click time, the click handler
    stores light or dark; over a whole lifetime the Store is either as the
    script found it or that Store with a theme written under the theme
    key. *)
Theorem store_writes_are_themes (w : World) (es : list Event) :
  (∃ nt w', is_theme nt ∧
            click_handler w = (setStoredTheme nt;; setTheme nt) w ∧
            click_handler w = Ok tt w' ∧
            getStoredTheme w' = Ok nt w' ∧
            localStorage w' = <["theme" := to_string nt]> (localStorage w)) ∧
  (∃ w', page es w = Ok tt w' ∧
         (localStorage w' = localStorage w ∨
          ∃ t : Theme, localStorage w' = <["theme" := to_string t]> (localStorage w))).
Proof.
  split.
  - exists (flipped (applied w)). eexists.
    split; [apply flipped_is_theme|].
    split; [apply click_handler_seq|].
    split; [apply click_handler_eq|].
    rewrite getStoredTheme_stored, stored_after_click, to_string_flipped.
    split; [done|]. by rewrite localStorage_after_setTheme.
  - apply (page_keeps
             (λ w0, localStorage w0 = localStorage w ∨
                    ∃ t : Theme, localStorage w0 = <["theme" := to_string t]> (localStorage w))).
    + intros [|] w0 HP; simpl; eexists.
      * split; [apply domContentLoaded_handler_eq|]. by rewrite localStorage_after_bind.
      * split; [apply click_handler_eq|].
        rewrite localStorage_after_setTheme. simpl. right.
        assert (∃ t : Theme, to_string (flipped (applied w0)) = to_string t) as [t ->].
        { unfold flipped. destruct (strict_eq _ _); [by exists light|by exists dark]. }
        exists t. destruct HP as [->|[t' ->]]; [done|].
        by rewrite insert_insert_eq.
    + by intros b i [].
    + by intros f [].
    + left. by rewrite localStorage_after_setTheme.
Qed.

(** * Further properties of the script *)

(** ** Shared facts about the two writers *)

Lemma themeToggle_after_setTheme (v : value) (w : World) :
  themeToggle (paint_icon v (set_applied v w)) = themeToggle w.
Proof.
  unfold paint_icon, found_icon, set_applied.
  by destruct w as [ls mm ra dl [b|] [i|]].
Qed.

Lemma matchMedia_after_setTheme (v : value) (w : World) :
  matchMedia (paint_icon v (set_applied v w)) = matchMedia w.
Proof.
  unfold paint_icon, found_icon, set_applied.
  by destruct w as [ls mm ra dl [b|] [i|]].
Qed.

Lemma root_attrs_after_setTheme (v : value) (w : World) :
  root_attrs (paint_icon v (set_applied v w))
  = <["data-bs-theme" := to_string v]> (root_attrs w).
Proof.
  unfold paint_icon, found_icon, set_applied.
  by destruct w as [ls mm ra dl [b|] [i|]].
Qed.

Lemma themeToggle_i_after_setTheme (v : value) (w : World) :
  themeToggle_i (paint_icon v (set_applied v w))
  = match found_icon w with
    | Some e => Some (mkElement (icon_class v) (listeners e))
    | None => themeToggle_i w
    end.
Proof.
  unfold paint_icon, found_icon, set_applied.
  by destruct w as [ls mm ra dl [b|] [i|]].
Qed.

Lemma found_icon_after_setTheme (v : value) (w : World) :
  found_icon (paint_icon v (set_applied v w))
  = (λ e, mkElement (icon_class v) (listeners e)) <$> found_icon w.
Proof.
  unfold paint_icon, found_icon, set_applied.
  by destruct w as [ls mm ra dl [b|] [i|]].
Qed.

Lemma flipped_flipped (v : value) : is_theme v → flipped (flipped v) = v.
Proof. by intros [-> | ->]. Qed.

Lemma icon_class_to_string (v : value) : icon_class (Str (to_string v)) = icon_class v.
Proof. by destruct v. Qed.

(** What one run of the click listener leaves behind. *)
Lemma click_handler_facts (w : World) :
  ∃ w1, click_handler w = Ok tt w1 ∧
        applied w1 = flipped (applied w) ∧
        stored w1 = flipped (applied w) ∧
        localStorage w1 = <["theme" := to_string (flipped (applied w))]> (localStorage w) ∧
        root_attrs w1 = <["data-bs-theme" := to_string (flipped (applied w))]> (root_attrs w) ∧
        themeToggle w1 = themeToggle w ∧
        doc_listeners w1 = doc_listeners w ∧
        matchMedia w1 = matchMedia w ∧
        found_icon w1
        = (λ e, mkElement (icon_class (flipped (applied w))) (listeners e)) <$> found_icon w.
Proof.
  eexists. split; [apply click_handler_eq|].
  rewrite applied_after_setTheme, stored_after_click, to_string_flipped.
  rewrite localStorage_after_setTheme, root_attrs_after_setTheme.
  rewrite themeToggle_after_setTheme, doc_listeners_after_setTheme.
  rewrite matchMedia_after_setTheme, found_icon_after_setTheme.
  by repeat split.
Qed.

(** A click event on a button that carries exactly the listener the script
    binds runs the click listener once. *)
Lemma fire_Click_bound (w : World) (b : Element) :
  themeToggle w = Some b →
  listeners b = [("click", OnToggleClick)] →
  fire Click w = click_handler w.
Proof.
  intros Hb Hl. unfold fire.
  rewrite (bind_Ok _ _ w w (Some b)) by (unfold gets; by rewrite Hb).
  rewrite Hl. simpl. unfold bind.
  by rewrite click_handler_eq.
Qed.

(** ** The Store accessors *)

(** X1: what [setStoredTheme] writes is what [getStoredTheme] reads back; an
    earlier write is overwritten without trace, and no other key of the
    storage and nothing of the document is touched. *)
Theorem stored_theme_round_trip (s s0 : string) (w : World) :
  ∃ w', setStoredTheme (Str s) w = Ok tt w' ∧
        getStoredTheme w' = Ok (Str s) w' ∧
        (setStoredTheme (Str s0);; setStoredTheme (Str s)) w = Ok tt w' ∧
        delete "theme" (localStorage w') = delete "theme" (localStorage w) ∧
        root_attrs w' = root_attrs w ∧
        themeToggle w' = themeToggle w ∧
        themeToggle_i w' = themeToggle_i w ∧
        doc_listeners w' = doc_listeners w.
Proof.
  eexists. split; [reflexivity|].
  split.
  { rewrite getStoredTheme_stored. unfold stored. simpl.
    by rewrite lookup_insert_eq. }
  split.
  { unfold setStoredTheme, localStorage_.setItem, bind, modify, set_localStorage. simpl.
    by rewrite insert_insert_eq. }
  simpl. by rewrite delete_insert_eq.
Qed.

(** ** Resolution *)

(** X3: [getPreferredTheme] always answers a non-empty string, never [null],
    and the load-time call writes exactly that string to the root
    attribute: after the load the attribute is present and non-empty. *)
Theorem preferred_theme_is_nonempty_string (w : World) :
  ∃ s w1, s ≠ "" ∧
          getPreferredTheme w = Ok (Str s) w ∧
          init w = Ok tt w1 ∧
          root_attrs w1 !! "data-bs-theme" = Some s.
Proof.
  assert (∃ s, s ≠ "" ∧ preferred w = Str s) as (s & Hne & Hs).
  { unfold preferred. destruct (stored w) as [|s0]; unfold truthy, value_truthy.
    - destruct (platform_dark w); eexists; (split; [|reflexivity]); discriminate.
    - destruct (String.eqb_spec s0 "") as [->|Hne]; simpl.
      + destruct (platform_dark w); eexists; (split; [|reflexivity]); discriminate.
      + by exists s0. }
  exists s. eexists.
  split; [done|].
  split; [by rewrite getPreferredTheme_eq, Hs|].
  split; [apply init_eq|].
  rewrite root_attrs_after_setTheme, Hs. simpl.
  by rewrite lookup_insert_eq.
Qed.

(** X2: the choice made by a click survives a reload.  In any later world
    that shares the storage left by the click, whatever its platform signal
    and document, [getPreferredTheme] answers the theme the click applied,
    and the load-time call applies it again. *)
Theorem click_survives_reload (w w1 w2 : World) :
  click_handler w = Ok tt w1 →
  localStorage w2 = localStorage w1 →
  is_theme (applied w1) ∧
  getPreferredTheme w2 = Ok (applied w1) w2 ∧
  ∃ w3, init w2 = Ok tt w3 ∧ applied w3 = applied w1 ∧ stored w3 = applied w1.
Proof.
  intros Hclick Hstore.
  destruct (click_handler_facts w) as (w1' & Hc & Happ & Hst & _).
  assert (w1' = w1) as -> by congruence.
  assert (stored w2 = applied w1) as Hs2.
  { unfold stored. rewrite Hstore. fold (stored w1). congruence. }
  assert (preferred w2 = applied w1) as Hpref.
  { unfold preferred. rewrite Hs2, Happ.
    unfold flipped. by destruct (strict_eq _ _). }
  split; [rewrite Happ; apply flipped_is_theme|].
  split; [by rewrite getPreferredTheme_eq, Hpref|].
  eexists. split; [apply init_eq|].
  rewrite applied_after_setTheme, preferred_is_string.
  split; [done|].
  unfold stored. rewrite localStorage_after_setTheme. by fold (stored w2).
Qed.

Lemma click_survives_reload_witness :
  click_handler (with_toggle ∅ true)
  = Ok tt (paint_icon (Str "dark")
             (set_applied (Str "dark")
                (set_localStorage (insert "theme" "dark") (with_toggle ∅ true)))) ∧
  localStorage (blank {[ "theme" := "dark" ]} false)
  = localStorage (paint_icon (Str "dark")
                    (set_applied (Str "dark")
                       (set_localStorage (insert "theme" "dark") (with_toggle ∅ true)))) ∧
  getPreferredTheme (blank {[ "theme" := "dark" ]} false)
  = Ok (Str "dark") (blank {[ "theme" := "dark" ]} false).
Proof.
  split; [reflexivity|]. split; [reflexivity|].
  apply (click_survives_reload (with_toggle ∅ true)
           (paint_icon (Str "dark")
              (set_applied (Str "dark")
                 (set_localStorage (insert "theme" "dark") (with_toggle ∅ true))))
           (blank {[ "theme" := "dark" ]} false)); reflexivity.
Defined.

(** ** Theme application, composed *)

(** X4: of two [setTheme] calls in a row only the second one shows: root
    attribute, icon class and the rest of the world are those of the second
    call alone. *)
Theorem setTheme_last_call_wins (a b : value) (w : World) :
  (setTheme a;; setTheme b) w = setTheme b w.
Proof.
  rewrite (bind_Ok _ _ _ _ _ (setTheme_eq a w)).
  rewrite !setTheme_eq. f_equal.
  unfold paint_icon, found_icon, set_applied, set_root_attrs, set_themeToggle_i.
  destruct w as [ls mm ra dl [tb|] [ti|]]; simpl; by rewrite insert_insert_eq.
Qed.

(** X5: storing a theme and applying a theme do not interfere: the two calls
    of the click listener give the same world in either order. *)
Theorem store_and_apply_commute (a b : value) (w : World) :
  (setStoredTheme a;; setTheme b) w = (setTheme b;; setStoredTheme a) w.
Proof.
  rewrite (bind_Ok _ _ _ _ _ (setTheme_eq b w)).
  rewrite (bind_Ok _ _ w (set_localStorage (insert "theme" (to_string a)) w) tt)
    by reflexivity.
  rewrite setTheme_eq.
  unfold setStoredTheme, localStorage_.setItem, modify. f_equal.
  unfold paint_icon, found_icon, set_applied, set_root_attrs, set_themeToggle_i,
    set_localStorage.
  by destruct w as [ls mm ra dl [tb|] [ti|]].
Qed.

(** ** The click listener *)

(** X6: a click changes the theme key of the storage, the theme attribute of
    the root and the icon's class, and nothing else: other storage keys,
    other root attributes, the button, the icon's listeners, the document's
    listeners and the media query are as before. *)
Theorem click_changes_nothing_else (w : World) :
  ∃ w1, click_handler w = Ok tt w1 ∧
        delete "theme" (localStorage w1) = delete "theme" (localStorage w) ∧
        delete "data-bs-theme" (root_attrs w1) = delete "data-bs-theme" (root_attrs w) ∧
        themeToggle w1 = themeToggle w ∧
        listeners <$> themeToggle_i w1 = listeners <$> themeToggle_i w ∧
        doc_listeners w1 = doc_listeners w ∧
        matchMedia w1 = matchMedia w.
Proof.
  eexists. split; [apply click_handler_eq|].
  rewrite localStorage_after_setTheme, root_attrs_after_setTheme.
  rewrite themeToggle_after_setTheme, doc_listeners_after_setTheme.
  rewrite matchMedia_after_setTheme, themeToggle_i_after_setTheme.
  simpl. rewrite !delete_insert_eq.
  repeat split; try done.
  unfold found_icon. by destruct w as [ls mm ra dl [tb|] [ti|]].
Qed.

(** Any number of clicks on a bound button, from any root attribute. *)
Lemma run_clicks (n : nat) (w : World) (b : Element) :
  themeToggle w = Some b →
  listeners b = [("click", OnToggleClick)] →
  ∃ w', run (replicate n Click) w = Ok tt w' ∧
        applied w' = Nat.iter n flipped (applied w) ∧
        (n = 0 ∨ stored w' = applied w').
Proof.
  revert w. induction n as [|n IH]; intros w Hb Hl.
  - exists w. simpl. split; [done|]. split; [done|]. by left.
  - change (run (replicate (S n) Click)) with (fire Click;; run (replicate n Click)).
    destruct (click_handler_facts w) as (w1 & Hc & Happ & Hst & _ & _ & Htb & _).
    rewrite (bind_Ok _ _ w w1 tt) by (by rewrite (fire_Click_bound w b Hb Hl)).
    destruct (IH w1) as (w' & Hrun & Happ' & Hst'); [by rewrite Htb|done|].
    exists w'. split; [done|].
    split.
    + rewrite Happ', Happ. by rewrite <- Nat.iter_succ_r.
    + right. destruct Hst' as [-> | Hst']; [|done].
      simpl in Hrun. injection Hrun as <-. congruence.
Qed.

Lemma iter_flipped_parity (n : nat) (v : value) :
  is_theme v → Nat.iter n flipped v = if Nat.even n then v else flipped v.
Proof.
  intros Hv. induction n as [|n IH]; [done|].
  rewrite Nat.iter_succ, IH, Nat.even_succ, <- Nat.negb_even.
  destruct (Nat.even n); simpl; [done|]. by apply flipped_flipped.
Qed.

(** X7: on a button carrying the script's one click listener, [n] clicks
    from a light or dark page give the starting theme when [n] is even and
    the other theme when [n] is odd; after the first click the stored
    preference is the applied theme. *)
Theorem clicks_alternate (n : nat) (w : World) (b : Element) :
  themeToggle w = Some b →
  listeners b = [("click", OnToggleClick)] →
  is_theme (applied w) →
  ∃ w', run (replicate n Click) w = Ok tt w' ∧
        applied w' = (if Nat.even n then applied w else flipped (applied w)) ∧
        (n = 0 ∨ stored w' = applied w').
Proof.
  intros Hb Hl Hth.
  destruct (run_clicks n w b Hb Hl) as (w' & Hrun & Happ & Hst).
  exists w'. split; [done|]. split; [|done].
  by rewrite Happ, iter_flipped_parity.
Qed.

Lemma clicks_alternate_witness :
  themeToggle (set_applied (Str "dark") (set_themeToggle (fmap bind_click) (with_toggle ∅ false)))
  = Some (mkElement "btn" [("click", OnToggleClick)]) ∧
  is_theme (applied (set_applied (Str "dark")
                       (set_themeToggle (fmap bind_click) (with_toggle ∅ false)))) ∧
  ∃ w', run (replicate 3 Click)
            (set_applied (Str "dark") (set_themeToggle (fmap bind_click) (with_toggle ∅ false)))
        = Ok tt w' ∧
        applied w' = Str "light" ∧
        (3 = 0 ∨ stored w' = applied w').
Proof.
  split; [reflexivity|]. split; [right; reflexivity|].
  apply (clicks_alternate 3
           (set_applied (Str "dark") (set_themeToggle (fmap bind_click) (with_toggle ∅ false)))
           (mkElement "btn" [("click", OnToggleClick)])).
  - reflexivity.
  - reflexivity.
  - right. reflexivity.
Defined.

(** ** The load *)

Lemma fire_DOMContentLoaded_once (w : World) :
  doc_listeners w = [("DOMContentLoaded", OnDOMContentLoaded)] →
  fire DOMContentLoaded w = domContentLoaded_handler w.
Proof.
  intros Hl. unfold fire.
  rewrite (bind_Ok _ _ w w (doc_listeners w)) by reflexivity.
  rewrite Hl. simpl. unfold bind.
  by rewrite domContentLoaded_handler_eq.
Qed.

Lemma script_facts (w : World) :
  ∃ w1, script w = Ok tt w1 ∧
        doc_listeners w1 = (doc_listeners w ++ [("DOMContentLoaded", OnDOMContentLoaded)])%list ∧
        themeToggle w1 = themeToggle w ∧
        localStorage w1 = localStorage w ∧
        applied w1 = preferred w ∧
        found_icon w1
        = (λ e, mkElement (icon_class (preferred w)) (listeners e)) <$> found_icon w.
Proof.
  eexists. split; [apply script_eq|].
  split.
  { simpl. by rewrite doc_listeners_after_setTheme. }
  split.
  { change (themeToggle (paint_icon (preferred w) (set_applied (preferred w) w))
            = themeToggle w).
    apply themeToggle_after_setTheme. }
  split.
  { change (localStorage (paint_icon (preferred w) (set_applied (preferred w) w))
            = localStorage w).
    apply localStorage_after_setTheme. }
  split.
  { change (applied (paint_icon (preferred w) (set_applied (preferred w) w))
            = preferred w).
    by rewrite applied_after_setTheme, preferred_is_string. }
  change (found_icon (paint_icon (preferred w) (set_applied (preferred w) w))
          = (λ e, mkElement (icon_class (preferred w)) (listeners e)) <$> found_icon w).
  apply found_icon_after_setTheme.
Qed.

(** X8: when the button is in the document as the script runs and no
    listener was registered before, the load (script, then
    [DOMContentLoaded]) appends exactly one click listener to the button,
    after those it already had, leaves exactly one listener on the document,
    and writes nothing to the storage. *)
Theorem load_binds_one_click_listener (w : World) (b : Element) :
  doc_listeners w = [] →
  themeToggle w = Some b →
  ∃ w', page [DOMContentLoaded] w = Ok tt w' ∧
        themeToggle w'
        = Some (mkElement (className b) (listeners b ++ [("click", OnToggleClick)])) ∧
        doc_listeners w' = [("DOMContentLoaded", OnDOMContentLoaded)] ∧
        localStorage w' = localStorage w ∧
        applied w' = preferred w.
Proof.
  intros Hdl Hb.
  destruct (script_facts w) as (w1 & Hs & Hdl1 & Htb1 & Hls1 & Happ1 & _).
  rewrite Hdl in Hdl1. simpl in Hdl1. rewrite Hb in Htb1.
  unfold page. rewrite (bind_Ok _ _ _ _ _ Hs).
  change (run [DOMContentLoaded]) with (fire DOMContentLoaded;; ret tt).
  assert (fire DOMContentLoaded w1 = Ok tt (set_themeToggle (fmap bind_click) w1)) as Hf.
  { rewrite (fire_DOMContentLoaded_once w1 Hdl1), domContentLoaded_handler_eq.
    by rewrite Htb1. }
  exists (set_themeToggle (fmap bind_click) w1).
  split; [by rewrite (bind_Ok _ _ _ _ _ Hf)|].
  destruct w1 as [ls1 mm1 ra1 dl1 tb1 ti1]. simpl in *. subst.
  by repeat split.
Qed.

Lemma load_binds_one_click_listener_witness :
  doc_listeners (with_toggle ∅ true) = [] ∧
  themeToggle (with_toggle ∅ true) = Some (mkElement "btn" []) ∧
  ∃ w', page [DOMContentLoaded] (with_toggle ∅ true) = Ok tt w' ∧
        themeToggle w' = Some (mkElement "btn" [("click", OnToggleClick)]) ∧
        doc_listeners w' = [("DOMContentLoaded", OnDOMContentLoaded)] ∧
        localStorage w' = localStorage (with_toggle ∅ true) ∧
        applied w' = preferred (with_toggle ∅ true).
Proof.
  split; [reflexivity|]. split; [reflexivity|].
  apply (load_binds_one_click_listener (with_toggle ∅ true) (mkElement "btn" []));
    reflexivity.
Defined.

(** X9: the [DOMContentLoaded] listener binds the click listener but does
    not repaint.  When the toggle markup enters the document after the
    script ran, the button gets its listener and the root attribute holds
    the resolved theme, but the icon keeps the class of the markup. *)
Theorem late_toggle_keeps_markup_icon (w : World) (c i : string) :
  doc_listeners w = [] →
  ∃ w', page [Parsed (Some c) (Some i); DOMContentLoaded] w = Ok tt w' ∧
        themeToggle w' = Some (mkElement c [("click", OnToggleClick)]) ∧
        found_icon w' = Some (mkElement i []) ∧
        applied w' = preferred w.
Proof.
  intros Hdl.
  destruct (script_facts w) as (w1 & Hs & Hdl1 & _ & _ & Happ1 & _).
  rewrite Hdl in Hdl1. simpl in Hdl1.
  unfold page. rewrite (bind_Ok _ _ _ _ _ Hs).
  change (run [Parsed (Some c) (Some i); DOMContentLoaded])
    with (fire (Parsed (Some c) (Some i));; fire DOMContentLoaded;; ret tt).
  set (w2 := set_themeToggle_i (λ _, Some (mkElement i []))
               (set_themeToggle (λ _, Some (mkElement c [])) w1)).
  assert (fire (Parsed (Some c) (Some i)) w1 = Ok tt w2) as Hp by reflexivity.
  assert (fire DOMContentLoaded w2 = Ok tt (set_themeToggle (fmap bind_click) w2)) as Hf.
  { rewrite (fire_DOMContentLoaded_once w2 Hdl1). apply domContentLoaded_handler_eq. }
  exists (set_themeToggle (fmap bind_click) w2).
  split; [by rewrite (bind_Ok _ _ _ _ _ Hp), (bind_Ok _ _ _ _ _ Hf)|].
  destruct w1 as [ls1 mm1 ra1 dl1 tb1 ti1]. simpl in *.
  by repeat split.
Qed.

Lemma late_toggle_keeps_markup_icon_witness :
  doc_listeners (blank ∅ true) = [] ∧
  ∃ w', page [Parsed (Some "btn") (Some "bi bi-moon-stars-fill fs-5"); DOMContentLoaded]
             (blank ∅ true) = Ok tt w' ∧
        themeToggle w' = Some (mkElement "btn" [("click", OnToggleClick)]) ∧
        found_icon w' = Some (mkElement "bi bi-moon-stars-fill fs-5" []) ∧
        applied w' = Str "dark".
Proof.
  split; [reflexivity|].
  exact (late_toggle_keeps_markup_icon (blank ∅ true) "btn" "bi bi-moon-stars-fill fs-5"
           eq_refl).
Defined.

(** ** The whole lifetime *)

(** X10: on a host whose storage and media query answer normally, the
    script never accesses a property of [null]: whichever of the button and
    the icon the document holds at any time, and whatever events follow, no
    [TypeError] is raised, because every property access on a looked-up
    element sits behind its null test. *)
Theorem page_never_throws (w : World) (es : list Event) :
  ∃ w', page es w = Ok tt w'.
Proof.
  unfold page. rewrite (bind_Ok _ _ _ _ _ (script_eq w)).
  apply run_total.
Qed.

(** X11: after the script has run, the stored preference and the applied
    theme agree at every point of the lifetime, except while the storage
    is still as the script found it with nothing, or the empty string,
    under the theme key. *)
Theorem stored_and_applied_agree (w : World) (es : list Event) :
  ∃ w', page es w = Ok tt w' ∧
        (stored w' = applied w' ∨
         (truthy (stored w) = false ∧ localStorage w' = localStorage w)).
Proof.
  apply (page_keeps
           (λ w0, stored w0 = applied w0 ∨
                  (truthy (stored w) = false ∧ localStorage w0 = localStorage w))).
  - intros [|] w0 HP; simpl.
    + eexists. split; [apply domContentLoaded_handler_eq|].
      unfold stored. rewrite applied_after_bind, localStorage_after_bind. exact HP.
    + destruct (click_handler_facts w0) as (w1 & Hc & Happ & Hst & _).
      exists w1. split; [done|]. left. congruence.
  - by intros b i [].
  - by intros f [].
  - unfold stored at 1. rewrite localStorage_after_setTheme. fold (stored w).
    rewrite applied_after_setTheme, preferred_is_string.
    unfold preferred. destruct (truthy (stored w)); [by left|by right].
Qed.

(** A property kept by both listeners is kept by the two events that run
    them. *)
Lemma fire_keeps_listening (P : World → Prop) :
  (∀ l w, P w → ∃ w', call l w = Ok tt w' ∧ P w') →
  ∀ e w, e = DOMContentLoaded ∨ e = Click → P w → ∃ w', fire e w = Ok tt w' ∧ P w'.
Proof.
  intros Hcall e w He HP.
  assert (∀ type ls w0, P w0 → ∃ w', dispatch type ls w0 = Ok tt w' ∧ P w') as Hd.
  { intros type ls w0 HP0.
    apply (dispatch_keeps P (λ _, True)); [|by apply Forall_true|done].
    intros l w1 _. apply Hcall. }
  destruct He as [-> | ->]; simpl.
  - rewrite (bind_Ok _ _ w w (doc_listeners w)) by reflexivity. by apply Hd.
  - rewrite (bind_Ok _ _ w w (themeToggle w)) by reflexivity.
    destruct (themeToggle w) as [b|]; [by apply Hd|by exists w].
Qed.

(** X12: when the icon is in the document as the script runs and the toggle
    markup is not rebuilt afterwards, the icon shows the sun class exactly
    when the root attribute is dark, and the moon class otherwise, after the
    load and after every later event. *)
Theorem icon_follows_applied_theme (w : World) (e : Element) (es : list Event) :
  found_icon w = Some e →
  Forall (λ ev, ev = DOMContentLoaded ∨ ev = Click) es →
  ∃ w' e', page es w = Ok tt w' ∧
           found_icon w' = Some e' ∧
           className e' = (if decide (applied w' = Str "dark")
                           then "bi bi-sun-fill fs-5"
                           else "bi bi-moon-stars-fill fs-5").
Proof.
  intros Hicon Hes.
  set (P := λ w0, ∃ e0, found_icon w0 = Some e0 ∧ className e0 = icon_class (applied w0)).
  assert (∃ w', page es w = Ok tt w' ∧ P w') as (w' & Hrun & e' & Hf & Hc).
  { destruct (script_facts w) as (w1 & Hs & _ & _ & _ & Happ1 & Hf1).
    unfold page. rewrite (bind_Ok _ _ _ _ _ Hs).
    apply (run_keeps P (λ ev, ev = DOMContentLoaded ∨ ev = Click)); [|done|].
    - apply fire_keeps_listening.
      intros [|] w0 (e0 & Hf0 & Hc0); simpl.
      + eexists. split; [apply domContentLoaded_handler_eq|].
        exists e0. rewrite applied_after_bind. split; [|done].
        revert Hf0. unfold found_icon. by destruct w0 as [ls mm ra dl [tb|] ti].
      + destruct (click_handler_facts w0) as (w2 & Hclick & Happ & _ & _ & _ & _ & _ & _ & Hf2).
        exists w2. split; [done|].
        rewrite Hf0 in Hf2. simpl in Hf2.
        eexists. split; [exact Hf2|]. simpl. by rewrite Happ.
    - rewrite Hicon in Hf1. simpl in Hf1.
      eexists. split; [exact Hf1|]. simpl. by rewrite Happ1. }
  exists w', e'. split; [done|]. split; [done|].
  rewrite Hc. unfold icon_class. rewrite strict_eq_decide.
  by destruct (decide (applied w' = Str "dark"));
    [rewrite bool_decide_eq_true_2|rewrite bool_decide_eq_false_2].
Qed.

Lemma icon_follows_applied_theme_witness :
  found_icon (with_toggle {[ "theme" := "dark" ]} false) = Some (mkElement "bi" []) ∧
  Forall (λ ev, ev = DOMContentLoaded ∨ ev = Click) [DOMContentLoaded; Click; Click; Click] ∧
  ∃ w' e', page [DOMContentLoaded; Click; Click; Click]
                (with_toggle {[ "theme" := "dark" ]} false) = Ok tt w' ∧
           found_icon w' = Some e' ∧
           className e' = (if decide (applied w' = Str "dark")
                           then "bi bi-sun-fill fs-5"
                           else "bi bi-moon-stars-fill fs-5").
Proof.
  assert (Forall (λ ev, ev = DOMContentLoaded ∨ ev = Click)
            [DOMContentLoaded; Click; Click; Click]) as Hes.
  { repeat (apply Forall_cons_2; [by auto|]). apply Forall_nil_2. }
  split; [reflexivity|]. split; [exact Hes|].
  apply (icon_follows_applied_theme (with_toggle {[ "theme" := "dark" ]} false)
           (mkElement "bi" [])); [reflexivity|exact Hes].
Defined.

Lemma run_clicks_unbound (n : nat) (w : World) :
  themeToggle w = None ∨ listeners <$> themeToggle w = Some [] →
  run (replicate n Click) w = Ok tt w.
Proof.
  intros Hb. induction n as [|n IH]; [done|].
  change (run (replicate (S n) Click)) with (fire Click;; run (replicate n Click)).
  rewrite (bind_Ok _ _ w w tt); [done|].
  unfold fire. rewrite (bind_Ok _ _ w w (themeToggle w)) by reflexivity.
  destruct (themeToggle w) as [b|]; [|done].
  destruct Hb as [Hb|Hb]; [done|].
  simpl in Hb. injection Hb as ->. done.
Qed.

(** X13: clicks that arrive before [DOMContentLoaded] are lost.  The script
    itself binds nothing to the button, so clicking a button that is absent
    or has no listener yet changes nothing: the world is the one the script
    left, and the storage is still the one it found. *)
Theorem early_clicks_do_nothing (n : nat) (w : World) :
  themeToggle w = None ∨ listeners <$> themeToggle w = Some [] →
  ∃ w1, script w = Ok tt w1 ∧
        page (replicate n Click) w = Ok tt w1 ∧
        localStorage w1 = localStorage w.
Proof.
  intros Hb.
  destruct (script_facts w) as (w1 & Hs & _ & Htb & Hls & _).
  exists w1. split; [done|]. split; [|done].
  unfold page. rewrite (bind_Ok _ _ _ _ _ Hs).
  apply run_clicks_unbound. by rewrite Htb.
Qed.

Lemma early_clicks_do_nothing_witness :
  listeners <$> themeToggle (with_toggle ∅ true) = Some [] ∧
  ∃ w1, script (with_toggle ∅ true) = Ok tt w1 ∧
        page (replicate 2 Click) (with_toggle ∅ true) = Ok tt w1 ∧
        localStorage w1 = localStorage (with_toggle ∅ true).
Proof.
  split; [reflexivity|].
  apply (early_clicks_do_nothing 2 (with_toggle ∅ true)).
  right. reflexivity.
Defined.

(** ** Clicks, from the load on *)

Lemma run_app (es1 es2 : list Event) (w : World) :
  run (es1 ++ es2)%list w = (run es1;; run es2) w.
Proof.
  revert w. induction es1 as [|e es1 IH]; intros w; [done|].
  change (run ((e :: es1) ++ es2)) with (fire e;; run (es1 ++ es2)).
  change (run (e :: es1)) with (fire e;; run es1).
  unfold bind.
  destruct (fire e w) as [[] w1|ex w1]; [|done].
  by rewrite IH.
Qed.

Lemma page_app (es1 es2 : list Event) (w w1 : World) :
  page es1 w = Ok tt w1 → page (es1 ++ es2)%list w = run es2 w1.
Proof.
  unfold page. rewrite (bind_Ok _ _ _ _ _ (script_eq w)).
  rewrite (bind_Ok _ _ _ _ _ (script_eq w)).
  intros H1. rewrite run_app. by rewrite (bind_Ok _ _ _ _ _ H1).
Qed.

(** The load leaves the script's click listener, and only it, on a button
    that was in the document without listeners. *)
Lemma load_leaves_button_bound (w : World) (b : Element) :
  doc_listeners w = [] →
  themeToggle w = Some b →
  listeners b = [] →
  ∃ w0, page [DOMContentLoaded] w = Ok tt w0 ∧
        themeToggle w0 = Some (mkElement (className b) [("click", OnToggleClick)]) ∧
        applied w0 = preferred w.
Proof.
  intros Hdl Hb Hl.
  destruct (script_facts w) as (w1 & Hs & Hdl1 & Htb1 & _ & Happ1 & _).
  rewrite Hdl in Hdl1. simpl in Hdl1. rewrite Hb in Htb1.
  unfold page. rewrite (bind_Ok _ _ _ _ _ Hs).
  change (run [DOMContentLoaded]) with (fire DOMContentLoaded;; ret tt).
  assert (fire DOMContentLoaded w1 = Ok tt (set_themeToggle (fmap bind_click) w1)) as Hf.
  { rewrite (fire_DOMContentLoaded_once w1 Hdl1), domContentLoaded_handler_eq.
    by rewrite Htb1. }
  exists (set_themeToggle (fmap bind_click) w1).
  split; [by rewrite (bind_Ok _ _ _ _ _ Hf)|].
  destruct w1 as [ls1 mm1 ra1 dl1 tb1 ti1]. simpl in *. subst.
  unfold bind_click. simpl. by rewrite Hl.
Qed.

(** Clicks leave the button and its listener as they are. *)
Lemma run_clicks_keep_button (n : nat) (w : World) (b : Element) :
  themeToggle w = Some b →
  listeners b = [("click", OnToggleClick)] →
  ∃ w', run (replicate n Click) w = Ok tt w' ∧ themeToggle w' = Some b.
Proof.
  revert w. induction n as [|n IH]; intros w Hb Hl.
  - by exists w.
  - change (run (replicate (S n) Click)) with (fire Click;; run (replicate n Click)).
    destruct (click_handler_facts w) as (w1 & Hc & _ & _ & _ & _ & Htb & _).
    rewrite (bind_Ok _ _ w w1 tt) by (by rewrite (fire_Click_bound w b Hb Hl)).
    apply IH; [by rewrite Htb|done].
Qed.

(** Every click event that follows the load runs the click listener once,
    on the world the earlier clicks left. *)
Lemma click_after_load (n : nat) (w : World) (b : Element) :
  doc_listeners w = [] →
  themeToggle w = Some b →
  listeners b = [] →
  ∃ wn wn1,
    page (DOMContentLoaded :: replicate n Click) w = Ok tt wn ∧
    page (DOMContentLoaded :: replicate (S n) Click) w = Ok tt wn1 ∧
    fire Click wn = Ok tt wn1 ∧
    click_handler wn = Ok tt wn1 ∧
    (n = 0 → applied wn = preferred w).
Proof.
  intros Hdl Hb Hl.
  destruct (load_leaves_button_bound w b Hdl Hb Hl) as (w0 & Hload & Hb0 & Happ0).
  destruct (run_clicks_keep_button n w0 _ Hb0 eq_refl) as (wn & Hrun & Hbn).
  destruct (click_handler_facts wn) as (wn1 & Hc & _).
  assert (fire Click wn = Ok tt wn1) as Hf.
  { by rewrite (fire_Click_bound wn _ Hbn eq_refl). }
  exists wn, wn1.
  split.
  { change (DOMContentLoaded :: replicate n Click)
      with (([DOMContentLoaded] ++ replicate n Click)%list).
    by rewrite (page_app _ _ _ _ Hload). }
  split.
  { change (DOMContentLoaded :: replicate (S n) Click)
      with (([DOMContentLoaded] ++ replicate (S n) Click)%list).
    rewrite (page_app _ _ _ _ Hload), replicate_S_end, run_app.
    rewrite (bind_Ok _ _ _ _ _ Hrun).
    change (run [Click]) with (fire Click;; ret tt).
    by rewrite (bind_Ok _ _ _ _ _ Hf). }
  split; [done|]. split; [done|].
  intros ->. simpl in Hrun. injection Hrun as <-. done.
Qed.

(** C4: the click listener stores and applies the flipped value of the
    current root attribute (light for dark, dark for anything else), so the
    stored preference and the applied theme agree afterwards.  The load
    binds this listener to the button: from a document that holds the
    button as the script runs, every click event after [DOMContentLoaded]
    runs the listener on the world the earlier clicks left, and when the
    load applied light, the first click gives dark/dark and the second
    light/light. *)
Theorem click_flips_and_stores (w : World) (b : Element) (n : nat) :
  (∃ w', click_handler w = Ok tt w' ∧
         (setStoredTheme (if decide (applied w = Str "dark") then Str "light" else Str "dark");;
          setTheme (if decide (applied w = Str "dark") then Str "light" else Str "dark")) w
         = Ok tt w' ∧
         getStoredTheme w'
         = Ok (if decide (applied w = Str "dark") then Str "light" else Str "dark") w' ∧
         document.documentElement_getAttribute "data-bs-theme" w'
         = Ok (if decide (applied w = Str "dark") then Str "light" else Str "dark") w' ∧
         stored w' = applied w') ∧
  (applied w = Str "light" →
   ∃ w1 w2, click_handler w = Ok tt w1 ∧
            applied w1 = Str "dark" ∧ stored w1 = Str "dark" ∧
            click_handler w1 = Ok tt w2 ∧
            applied w2 = Str "light" ∧ stored w2 = Str "light") ∧
  (doc_listeners w = [] → themeToggle w = Some b → listeners b = [] →
   ∃ wn wn1,
     page (DOMContentLoaded :: replicate n Click) w = Ok tt wn ∧
     page (DOMContentLoaded :: replicate (S n) Click) w = Ok tt wn1 ∧
     fire Click wn = Ok tt wn1 ∧
     getStoredTheme wn1
     = Ok (if decide (applied wn = Str "dark") then Str "light" else Str "dark") wn1 ∧
     document.documentElement_getAttribute "data-bs-theme" wn1
     = Ok (if decide (applied wn = Str "dark") then Str "light" else Str "dark") wn1 ∧
     stored wn1 = applied wn1) ∧
  (doc_listeners w = [] → themeToggle w = Some b → listeners b = [] →
   getPreferredTheme w = Ok (Str "light") w →
   ∃ w0 w1 w2,
     page [DOMContentLoaded] w = Ok tt w0 ∧
     applied w0 = Str "light" ∧
     page [DOMContentLoaded; Click] w = Ok tt w1 ∧
     applied w1 = Str "dark" ∧ stored w1 = Str "dark" ∧
     page [DOMContentLoaded; Click; Click] w = Ok tt w2 ∧
     applied w2 = Str "light" ∧ stored w2 = Str "light").
Proof.
  assert (∀ w0 w1, click_handler w0 = Ok tt w1 →
            applied w1 = flipped (applied w0) ∧ stored w1 = flipped (applied w0)) as Hclick.
  { intros w0 w1 H.
    destruct (click_handler_facts w0) as (w1' & Hc & Happ & Hst & _).
    assert (w1' = w1) as -> by congruence. done. }
  split; [|split; [|split]].
  - eexists. split; [apply click_handler_eq|].
    rewrite <- flipped_decide.
    split; [by rewrite <- click_handler_seq, click_handler_eq|].
    rewrite getStoredTheme_stored, getAttribute_applied.
    rewrite stored_after_click, applied_after_setTheme, to_string_flipped.
    done.
  - intros Hlight.
    eexists. eexists. split; [apply click_handler_eq|].
    rewrite Hlight.
    split; [by rewrite applied_after_setTheme|].
    split; [by rewrite stored_after_click|].
    split; [apply click_handler_eq|].
    rewrite !applied_after_setTheme, stored_after_click.
    done.
  - intros Hdl Hb Hl.
    destruct (click_after_load n w b Hdl Hb Hl) as (wn & wn1 & Hn & Hn1 & Hf & Hc & _).
    destruct (Hclick wn wn1 Hc) as [Happ Hst].
    exists wn, wn1. rewrite getStoredTheme_stored, getAttribute_applied.
    rewrite <- flipped_decide, Happ, Hst. done.
  - intros Hdl Hb Hl Hpref.
    rewrite getPreferredTheme_eq in Hpref.
    assert (preferred w = Str "light") as Hlight by (by injection Hpref).
    destruct (click_after_load 0 w b Hdl Hb Hl) as (w0 & w1 & H0 & H1 & _ & Hc0 & Happ0).
    destruct (click_after_load 1 w b Hdl Hb Hl) as (w1' & w2 & H1' & H2 & _ & Hc1 & _).
    assert (w1' = w1) as -> by congruence.
    destruct (Hclick w0 w1 Hc0) as [Happ1 Hst1].
    destruct (Hclick w1 w2 Hc1) as [Happ2 Hst2].
    rewrite (Happ0 eq_refl), Hlight in Happ1, Hst1.
    rewrite Happ1 in Happ2, Hst2.
    exists w0, w1, w2.
    rewrite (Happ0 eq_refl), Hlight.
    by repeat split.
Qed.

Lemma click_flips_and_stores_witness :
  (applied (set_applied (Str "light") (with_toggle ∅ true)) = Str "light" ∧
   ∃ w1 w2,
     click_handler (set_applied (Str "light") (with_toggle ∅ true)) = Ok tt w1 ∧
     applied w1 = Str "dark" ∧ stored w1 = Str "dark" ∧
     click_handler w1 = Ok tt w2 ∧
     applied w2 = Str "light" ∧ stored w2 = Str "light") ∧
  (doc_listeners (with_toggle ∅ false) = [] ∧
   themeToggle (with_toggle ∅ false) = Some (mkElement "btn" []) ∧
   getPreferredTheme (with_toggle ∅ false) = Ok (Str "light") (with_toggle ∅ false) ∧
   (∃ wn wn1,
      page (DOMContentLoaded :: replicate 2 Click) (with_toggle ∅ false) = Ok tt wn ∧
      page (DOMContentLoaded :: replicate 3 Click) (with_toggle ∅ false) = Ok tt wn1 ∧
      fire Click wn = Ok tt wn1 ∧
      getStoredTheme wn1
      = Ok (if decide (applied wn = Str "dark") then Str "light" else Str "dark") wn1 ∧
      document.documentElement_getAttribute "data-bs-theme" wn1
      = Ok (if decide (applied wn = Str "dark") then Str "light" else Str "dark") wn1 ∧
      stored wn1 = applied wn1) ∧
   (∃ w0 w1 w2,
      page [DOMContentLoaded] (with_toggle ∅ false) = Ok tt w0 ∧
      applied w0 = Str "light" ∧
      page [DOMContentLoaded; Click] (with_toggle ∅ false) = Ok tt w1 ∧
      applied w1 = Str "dark" ∧ stored w1 = Str "dark" ∧
      page [DOMContentLoaded; Click; Click] (with_toggle ∅ false) = Ok tt w2 ∧
      applied w2 = Str "light" ∧ stored w2 = Str "light")).
Proof.
  split.
  - split; [reflexivity|].
    apply (click_flips_and_stores (set_applied (Str "light") (with_toggle ∅ true))
             (mkElement "btn" []) 0).
    reflexivity.
  - split; [reflexivity|]. split; [reflexivity|]. split; [reflexivity|].
    split.
    + apply (click_flips_and_stores (with_toggle ∅ false) (mkElement "btn" []) 2);
        reflexivity.
    + apply (click_flips_and_stores (with_toggle ∅ false) (mkElement "btn" []) 2);
        reflexivity.
Defined.
